(** * dashboard.py: a CSV explorer written with Streamlit and pandas

    The script is re-executed from top to bottom on every interaction.  It
    reads the uploaded CSV through a memoised [load_data], shows three
    metrics and a preview, lets the user pick an X column, a numeric Y
    column, a grouping column and some of its values, and draws the
    pivoted sums as a bar chart.

    The embedding has three layers:
    - the pandas values the script handles (cells, series, frames) and the
      pandas calls it makes, as pure functions on those values;
    - a state-and-exception monad for one execution of the script: the
      [st.cache_data] store, the frames alive, the page rendered so far;
    - the script itself, statement by statement.

    Numeric cells carry mathematical integers: the rounding of float64 and
    the wrap-around of int64 inside pandas sums are not part of this
    embedding. *)

From Stdlib Require Import Ascii.
From stdpp Require Import base numbers list sorting strings pretty gmap.

(** ** Exceptions *)

(** Every exception the script can meet is an instance of Python's
    [Exception]; [str(e)] is its message. *)
Record exc := Exception { exc_class : string; message : string }.

Inductive result (A : Type) :=
| Ok (a : A)
| Raise (e : exc).
Arguments Ok {A} a.
Arguments Raise {A} e.

(** ** Cells *)

Inductive np_dtype := int64 | float64 | bool_ | object_.

Inductive value :=
| Num (z : Z)
| Str (s : string)
| Boolean (b : bool)
| NaN
| PyNone.

#[global] Instance np_dtype_eq_dec : EqDecision np_dtype.
Proof. solve_decision. Defined.

#[global] Instance value_eq_dec : EqDecision value.
Proof. solve_decision. Defined.

(** [pd.isna] on a scalar. *)
Definition isna (v : value) : bool :=
  match v with
  | NaN | PyNone => true
  | _ => false
  end.

(** [str(v)], as the f-strings of the script print a column label. *)
Definition to_str (v : value) : string :=
  match v with
  | Num z => pretty z
  | Str s => s
  | Boolean true => "True"
  | Boolean false => "False"
  | NaN => "nan"
  | PyNone => "None"
  end.

(** What a cell adds to a sum with [skipna]: a missing cell adds nothing,
    [True] counts for one. *)
Definition cell_num (v : value) : Z :=
  match v with
  | Num z => z
  | Boolean true => 1
  | _ => 0
  end.

Definition sum_cells (l : list value) : Z := foldr Z.add 0%Z (cell_num <$> l).

(** The order pandas sorts group keys in: within one kind the natural
    order, across kinds numbers before strings before missing values. *)
Definition kind_rank (v : value) : nat :=
  match v with
  | Boolean _ => 0
  | Num _ => 1
  | Str _ => 2
  | NaN => 3
  | PyNone => 4
  end.

Definition value_leb (a b : value) : bool :=
  match a, b with
  | Num x, Num y => (x <=? y)%Z
  | Str s, Str t => String.leb s t
  | Boolean x, Boolean y => implb x y
  | _, _ => kind_rank a <=? kind_rank b
  end.

Definition value_le (a b : value) : Prop := value_leb a b = true.

#[global] Instance value_le_dec : RelDecision value_le.
Proof. intros a b. unfold value_le. apply _. Defined.

(** ** Series and frames *)

Record Series := {
  name : value;
  dtype : np_dtype;
  values : list value
}.

(** A frame is its row labels and its columns; a frame read from a CSV
    has the row labels [0 .. n-1] and column labels that are strings. *)
Record DataFrame := {
  index : list value;
  columns : list Series
}.

#[global] Instance Series_eq_dec : EqDecision Series.
Proof. solve_decision. Defined.

#[global] Instance DataFrame_eq_dec : EqDecision DataFrame.
Proof. solve_decision. Defined.

(** Every column is as long as the index, and no label is used twice
    ([read_csv] renames repeated header fields). *)
Definition wf_frame (df : DataFrame) : Prop :=
  Forall (λ s, length (values s) = length (index df)) (columns df)
  ∧ NoDup (name <$> columns df).

(** [df.shape] *)
Definition shape (df : DataFrame) : nat * nat :=
  (length (index df), length (columns df)).

(** [df.columns.tolist()] *)
Definition columns_tolist (df : DataFrame) : list value := name <$> columns df.

(** [df.isna()] *)
Definition DataFrame_isna (df : DataFrame) : DataFrame :=
  {| index := index df;
     columns :=
       (λ s, {| name := name s; dtype := bool_;
                values := (λ v, Boolean (isna v)) <$> values s |})
         <$> columns df |}.

(** [Series.sum()] *)
Definition Series_sum (s : Series) : Z := sum_cells (values s).

(** [DataFrame.sum()]: one sum per column, as a series over the column
    labels. *)
Definition DataFrame_sum (df : DataFrame) : Series :=
  {| name := PyNone; dtype := int64;
     values := (λ s, Num (Series_sum s)) <$> columns df |}.

(** [df.head()]: the first five rows. *)
Definition DataFrame_head (df : DataFrame) : DataFrame :=
  {| index := take 5 (index df);
     columns :=
       (λ s, {| name := name s; dtype := dtype s; values := take 5 (values s) |})
         <$> columns df |}.

(** [df.select_dtypes(include=...)]; pandas reads ['float', 'int'] as the
    float and the integer dtypes. *)
Definition select_dtypes (include : list np_dtype) (df : DataFrame) : DataFrame :=
  {| index := index df;
     columns := filter (λ s, dtype s ∈ include) (columns df) |}.

Definition KeyError (key : value) : exc :=
  {| exc_class := "KeyError"; message := to_str key |}.

Definition ValueError (msg : string) : exc :=
  {| exc_class := "ValueError"; message := msg |}.

(** [df[key]] for a label. *)
Definition getitem (df : DataFrame) (key : value) : result Series :=
  match list_find (λ s, name s = key) (columns df) with
  | Some (_, s) => Ok s
  | None => Raise (KeyError key)
  end.

(** [Series.unique()]: one pass over the cells with the set of values seen
    so far; a value is emitted when it is met for the first time. *)
Fixpoint unique_go (seen l : list value) : list value :=
  match l with
  | [] => []
  | v :: l' =>
      if decide (v ∈ seen) then unique_go seen l'
      else v :: unique_go (v :: seen) l'
  end.

Definition unique (s : Series) : list value := unique_go [] (values s).

(** [Series.isin(vals)] *)
Definition isin (s : Series) (vals : list value) : list bool :=
  (λ v, bool_decide (v ∈ vals)) <$> values s.

(** Selection by a boolean mask. *)
Fixpoint mask_select {A} (mask : list bool) (l : list A) : list A :=
  match mask, l with
  | b :: mask', x :: l' =>
      if b then x :: mask_select mask' l' else mask_select mask' l'
  | _, _ => []
  end.

(** [s[mask]] *)
Definition Series_mask (mask : list bool) (s : Series) : Series :=
  {| name := name s; dtype := dtype s; values := mask_select mask (values s) |}.

(** [df[mask]]: a new frame with the rows where the mask holds. *)
Definition getitem_mask (df : DataFrame) (mask : list bool) : DataFrame :=
  {| index := mask_select mask (index df);
     columns := Series_mask mask <$> columns df |}.

(** Every cell of a frame, column after column, and the number of
    missing ones in a list of cells. *)
Definition all_cells (df : DataFrame) : list value :=
  mjoin (values <$> columns df).

Definition count_missing (l : list value) : nat :=
  length (filter (λ v, isna v = true) l).


(** ** The pivot *)

(** The rows the pivot groups: the X cell, the group cell and the Y cell of
    every row of the frame. *)
Abbreviation record := (value * value * value)%type.

Definition rec_x (r : record) : value := r.1.1.
Definition rec_g (r : record) : value := r.1.2.
Definition rec_y (r : record) : value := r.2.

Definition records (xs gs ys : Series) : list record :=
  zip (zip (values xs) (values gs)) (values ys).

(** [groupby(..., dropna=True)]: a row with a missing key is in no group. *)
Definition has_keys (r : record) : Prop :=
  isna (rec_x r) = false ∧ isna (rec_g r) = false.

#[global] Instance has_keys_dec r : Decision (has_keys r).
Proof. unfold has_keys. apply _. Defined.

Definition in_group (x g : value) (r : record) : Prop :=
  rec_x r = x ∧ rec_g r = g.

#[global] Instance in_group_dec x g r : Decision (in_group x g r).
Proof. unfold in_group. apply _. Defined.

(** The cell of group (x, g) after [sum] and [unstack]: the sum of the Y
    cells of the group (nothing is added for a missing Y), and NaN where
    the group has no row. *)
Definition group_cell (rows : list record) (x g : value) : value :=
  match filter (in_group x g) rows with
  | [] => NaN
  | members => Num (sum_cells (rec_y <$> members))
  end.

(** Unstacking fills the cells of absent groups with NaN, which turns an
    integer block into a float block. *)
Definition unstacked_dtype (cells : list (list value)) (d : np_dtype) : np_dtype :=
  if existsb (existsb isna) cells then float64 else d.

(** Group by (X, group), sum Y, unstack the group level: the row labels
    are the X keys and the column labels the group keys, both sorted. *)
Definition pivot_records (rows : list record) (d : np_dtype) : DataFrame :=
  let grouped := filter has_keys rows in
  let xkeys := merge_sort value_le (unique_go [] (rec_x <$> grouped)) in
  let gkeys := merge_sort value_le (unique_go [] (rec_g <$> grouped)) in
  let column g := (λ x, group_cell grouped x g) <$> xkeys in
  let d' := unstacked_dtype (column <$> gkeys) d in
  {| index := xkeys;
     columns := (λ g, {| name := g; dtype := d'; values := column g |}) <$> gkeys |}.

(** The cell of a frame at row label [x] and column label [g]. *)
Definition position (x : value) (l : list value) : option nat :=
  fst <$> list_find (λ y, y = x) l.


(** ** Streamlit: the page, the widgets, the cache *)

Record UploadedFile := {
  file_name : string;
  file_body : string
}.

#[global] Instance UploadedFile_eq_dec : EqDecision UploadedFile.
Proof. solve_decision. Defined.

(** What [st.cache_data] keys an uploaded file on: its name and content. *)
Definition file_id (f : UploadedFile) : string * string :=
  (file_name f, file_body f).

(** The elements a run leaves on the page, in the order they are emitted;
    the elements of an expander follow it. *)
Inductive element :=
| Title (body : string)
| SidebarHeader (body : string)
| FileUploader (label : string)
| Metric (label : string) (shown : string)
| Expander (label : string)
| Dataframe (data : DataFrame)
| Divider
| Subheader (body : string)
| Selectbox (label : string) (options : list value) (default_index : nat)
| Markdown (body : string)
| InfoBox (body : string)
| Multiselect (label : string) (options defaults : list value)
| BarChart (data : DataFrame)
| WarningBox (body : string)
| ErrorBox (body : string).

#[global] Instance element_eq_dec : EqDecision element.
Proof. solve_decision. Defined.

(** The state of the widgets when the script runs: for each select box the
    position the user picked among its options, for the multiselect the
    positions picked; [None] for a widget the user has not touched. *)
Record widgets := {
  x_choice : option nat;
  y_choice : option nat;
  color_choice : option nat;
  items_choice : option (list nat)
}.

(** A frame of the running script is addressed by its position on the
    heap. *)
Definition ref := nat.

Record state := {
  cache : gmap (string * string) DataFrame;
  parsed : list UploadedFile;
  heap : list DataFrame;
  page : list element
}.

Definition M (A : Type) : Type := state → state * result A.

#[global] Instance M_ret : MRet M := λ A a s, (s, Ok a).

#[global] Instance M_bind : MBind M := λ A B f m s,
  match m s with
  | (s', Ok a) => f a s'
  | (s', Raise e) => (s', Raise e)
  end.

Definition raise {A} (e : exc) : M A := λ s, (s, Raise e).

(** [try: body except Exception as e: handler(e)] *)
Definition try_except (body : M ()) (handler : exc → M ()) : M () := λ s,
  match body s with
  | (s', Ok a) => (s', Ok a)
  | (s', Raise e) => handler e s'
  end.

Definition render (e : element) : M () := λ s,
  ({| cache := cache s; parsed := parsed s; heap := heap s;
      page := page s ++ [e] |}, Ok ()).

(** A frame returned by a pandas call is a new object. *)
Definition alloc (df : DataFrame) : M ref := λ s,
  ({| cache := cache s; parsed := parsed s; heap := heap s ++ [df];
      page := page s |}, Ok (length (heap s))).

(** The state a run starts in: the store and the parser log of the session,
    no frame, an empty page. *)
Definition fresh (s : state) : state :=
  {| cache := cache s; parsed := parsed s; heap := []; page := [] |}.

(** A state with more frames and a longer page. *)
Definition extend (frames : list DataFrame) (elements : list element)
    (s : state) : state :=
  {| cache := cache s; parsed := parsed s; heap := heap s ++ frames;
     page := page s ++ elements |}.

Definition deref (r : ref) : M DataFrame := λ s,
  match heap s !! r with
  | Some df => (s, Ok df)
  | None => (s, Raise {| exc_class := "NameError"; message := "" |})
  end.

(** A pandas call that reads a frame. *)
Definition reading {A} (f : DataFrame → A) (r : ref) : M A :=
  df ← deref r; mret (f df).

(** A pandas call that builds a frame out of one. *)
Definition deriving (f : DataFrame → DataFrame) (r : ref) : M ref :=
  df ← deref r; alloc (f df).

Definition lift_result {A} (x : result A) : M A := λ s, (s, x).

(** [f"{n:,}"]: the decimal digits in groups of three, from the right. *)
Fixpoint group3 (rev_digits : list ascii) : list ascii :=
  match rev_digits with
  | a :: b :: c :: rest =>
      match rest with
      | [] => [a; b; c]
      | _ => a :: b :: c :: ","%char :: group3 rest
      end
  | _ => rev_digits
  end.

Definition format_thousands (n : nat) : string :=
  String.string_of_list_ascii
    (reverse (group3 (reverse (String.list_ascii_of_string (pretty n))))).

(** A formatted number read without its separators. *)
Definition without_commas (s : string) : string :=
  String.string_of_list_ascii
    (filter (λ c, c ≠ ","%char) (String.list_ascii_of_string s)).

(** [st.selectbox(label, options, index=i)]: the option at the position the
    user picked, the option at [i] before any pick, [None] when there is
    nothing to pick from. *)
Definition picked (options : list value) (i : nat) (choice : option nat) : nat :=
  match choice with
  | Some j => if decide (j < length options) then j else i
  | None => i
  end.

Definition option_at (options : list value) (i : nat) (choice : option nat)
    : value :=
  default PyNone (options !! picked options i choice).

Definition selectbox (label : string) (options : list value) (i : nat)
    (choice : option nat) : M value :=
  render (Selectbox label options i);;
  mret (option_at options i choice).

(** [st.multiselect(label, options=, default=)]: the options the user
    picked, in the order picked; the defaults before any pick. *)
Definition chosen (options defaults : list value) (choice : option (list nat))
    : list value :=
  match choice with
  | Some picks => omap (λ j, options !! j) picks
  | None => defaults
  end.

Definition multiselect (label : string) (options defaults : list value)
    (choice : option (list nat)) : M (list value) :=
  render (Multiselect label options defaults);;
  mret (chosen options defaults choice).

(** [all_cols.index(name) if name in all_cols else 0] *)
Definition default_index (preferred : value) (cols : list value) : nat :=
  if decide (preferred ∈ cols) then default 0 (position preferred cols) else 0.

(** Lines 43-44: the two lists of column labels. *)
Definition numeric_cols (df : DataFrame) : list value :=
  columns_tolist (select_dtypes [float64; int64] df).

Definition all_cols (df : DataFrame) : list value := columns_tolist df.

(** Lines 52-63: the column each select box returns. *)
Definition x_axis_of (df : DataFrame) (w : widgets) : value :=
  option_at (all_cols df) (default_index (Str "wm_yr_wk") (all_cols df))
    (x_choice w).

Definition y_axis_of (df : DataFrame) (w : widgets) : value :=
  option_at (numeric_cols df)
    (default_index (Str "Week_of_Supply") (numeric_cols df)) (y_choice w).

Definition color_col_of (df : DataFrame) (w : widgets) : value :=
  option_at (all_cols df)
    (default_index (Str "walmart_item_number") (all_cols df)) (color_choice w).

(** Lines 70-77: what the multiselect returns for a group column. *)
Definition selected_items_of (col : Series) (w : widgets) : list value :=
  chosen (unique col) (take 5 (unique col)) (items_choice w).

(** Lines 53-77: what the pickers put on the page for a group column. *)
Definition pickers (df : DataFrame) (w : widgets) (col : Series) : list element :=
  [ Selectbox "X-Axis (Time)" (all_cols df)
      (default_index (Str "wm_yr_wk") (all_cols df));
    Selectbox "Y-Axis (Value)" (numeric_cols df)
      (default_index (Str "Week_of_Supply") (numeric_cols df));
    Selectbox "Color Code By" (all_cols df)
      (default_index (Str "walmart_item_number") (all_cols df));
    Markdown ("### Filter by " +:+ to_str (color_col_of df w));
    InfoBox "Select specific items to compare. Showing top 5 by default.";
    Multiselect ("Choose specific " +:+ to_str (color_col_of df w) +:+ "s to view:")
      (unique col) (take 5 (unique col)) ].

(** Lines 7-18: what every run puts on the page first. *)
Definition header : list element :=
  [ Title "📊 My Custom Data Dashboard";
    SidebarHeader "Upload Data";
    FileUploader "Upload your CSV file" ].

Definition waiting : string :=
  "👈 Waiting for you to upload a CSV file in the sidebar.".

(** Line 106: the text of the error box. *)
Definition error_text (e : exc) : string :=
  "Error processing file: " +:+ message e.

(** Lines 30-36: what the metrics and the preview put on the page. *)
Definition missing_values (df : DataFrame) : Z :=
  Series_sum (DataFrame_sum (DataFrame_isna df)).

Definition summary (df : DataFrame) : list element :=
  [ Metric "Total Rows" (format_thousands (shape df).1);
    Metric "Total Columns" (pretty (shape df).2);
    Metric "Missing Values" (pretty (missing_values df));
    Expander "Values Preview (Click to expand)";
    Dataframe (DataFrame_head df) ].

(** Lines 39-40 and 94-98: the head of the plotting section, and the chart
    with its table. *)
Definition plot_head : list element :=
  [ Divider; Subheader "Visualize Your Data" ].

Definition chart_elements (table : DataFrame) : list element :=
  [ BarChart table; Expander "See chart data"; Dataframe table ].

(** The labels of the page. *)
Definition select_one_warning : string :=
  "Please select at least one item from the box above to generate the chart.".

Definition no_numeric_warning : string :=
  "No numeric columns found in this CSV to plot.".

Definition is_chart (e : element) : Prop :=
  match e with BarChart _ => True | _ => False end.

#[global] Instance is_chart_dec e : Decision (is_chart e).
Proof. destruct e; simpl; apply _. Defined.

Definition is_picker (e : element) : Prop :=
  match e with Selectbox _ _ _ | Multiselect _ _ _ => True | _ => False end.

#[global] Instance is_picker_dec e : Decision (is_picker e).
Proof. destruct e; simpl; apply _. Defined.

Definition is_error (e : element) : Prop :=
  match e with ErrorBox _ => True | _ => False end.

#[global] Instance is_error_dec e : Decision (is_error e).
Proof. destruct e; simpl; apply _. Defined.

(** ** Example tables *)

(** The table of the specification: X, G, Y over three rows. *)
Definition sales_X : Series :=
  {| name := Str "X"; dtype := int64; values := [Num 1; Num 1; Num 2] |}.
Definition sales_G : Series :=
  {| name := Str "G"; dtype := object_; values := [Str "a"; Str "b"; Str "a"] |}.
Definition sales_Y : Series :=
  {| name := Str "Y"; dtype := int64; values := [Num 10; Num 5; Num 3] |}.

Definition sales : DataFrame :=
  {| index := [Num 0; Num 1; Num 2]; columns := [sales_X; sales_G; sales_Y] |}.

(** A table with the column names the script looks for, a fourth column,
    and one missing cell. *)
Definition stock_week : Series :=
  {| name := Str "wm_yr_wk"; dtype := int64;
     values := [Num 12501; Num 12501; Num 12502; Num 12502] |}.
Definition stock_item : Series :=
  {| name := Str "walmart_item_number"; dtype := int64;
     values := [Num 7; Num 8; Num 7; Num 8] |}.
Definition stock_supply : Series :=
  {| name := Str "Week_of_Supply"; dtype := float64;
     values := [Num 4; Num 6; NaN; Num 5] |}.
Definition stock_region : Series :=
  {| name := Str "region"; dtype := object_;
     values := [Str "north"; Str "north"; Str "south"; Str "south"] |}.

Definition stock : DataFrame :=
  {| index := [Num 0; Num 1; Num 2; Num 3];
     columns := [stock_week; stock_item; stock_supply; stock_region] |}.

(** A table without a numeric column. *)
Definition names : DataFrame :=
  {| index := [Num 0; Num 1];
     columns := [ {| name := Str "first"; dtype := object_;
                     values := [Str "Ada"; Str "Alan"] |};
                  {| name := Str "last"; dtype := object_;
                     values := [Str "Lovelace"; Str "Turing"] |} ] |}.

Definition sales_csv : UploadedFile :=
  {| file_name := "sales.csv"; file_body := "X,G,Y
1,a,10
1,b,5
2,a,3
" |}.

Definition stock_csv : UploadedFile :=
  {| file_name := "stock.csv";
     file_body := "wm_yr_wk,walmart_item_number,Week_of_Supply,region
12501,7,4.0,north
12501,8,6.0,north
12502,7,,south
12502,8,5.0,south
" |}.

Definition names_csv : UploadedFile :=
  {| file_name := "names.csv"; file_body := "first,last
Ada,Lovelace
Alan,Turing
" |}.

Definition empty_csv : UploadedFile :=
  {| file_name := "empty.csv"; file_body := "" |}.

(** A parser that knows the files above; on the empty file pandas raises
    [EmptyDataError]. *)
Definition read_examples (file : UploadedFile) : result DataFrame :=
  if decide (file = sales_csv) then Ok sales
  else if decide (file = stock_csv) then Ok stock
  else if decide (file = names_csv) then Ok names
  else Raise {| exc_class := "EmptyDataError";
                message := "No columns to parse from file" |}.

(** An instance of the pivot of a narrow frame under a repeated label, for
    the examples; none of them reaches it. *)
Definition pivot_repeated_example (data : DataFrame) (index_ columns_ values_ : value)
    : result DataFrame :=
  Raise (ValueError "repeated label").

Definition untouched : widgets :=
  {| x_choice := None; y_choice := None; color_choice := None;
     items_choice := None |}.

Definition new_session : state :=
  {| cache := ∅; parsed := []; heap := []; page := [] |}.

(** Sessions in which a table has just been loaded. *)
Definition sales_loaded : state :=
  {| cache := ∅; parsed := []; heap := [sales]; page := [] |}.

Definition stock_loaded : state :=
  {| cache := ∅; parsed := []; heap := [stock]; page := [] |}.

(** The user cleared the multiselect. *)
Definition cleared : widgets :=
  {| x_choice := None; y_choice := None; color_choice := None;
     items_choice := Some [] |}.

(** A table of four columns without the names the script looks for; its
    first column is numeric. *)
Definition readings_sensor : Series :=
  {| name := Str "sensor"; dtype := int64; values := [Num 1; Num 2] |}.

Definition readings_rest : list Series :=
  [ {| name := Str "site"; dtype := object_; values := [Str "east"; Str "west"] |};
    {| name := Str "level"; dtype := float64; values := [Num 30; NaN] |};
    {| name := Str "unit"; dtype := object_; values := [Str "cm"; Str "cm"] |} ].

Definition readings : DataFrame :=
  {| index := [Num 0; Num 1]; columns := readings_sensor :: readings_rest |}.




(** ** The script *)

Section Dashboard.

(** [pd.read_csv] on an uploaded file: the frame parsed, or the exception
    the parser raises. *)
Variable read_csv : UploadedFile → result DataFrame.

(** What [pivot_table] returns when one label is given for two of index,
    columns and values and the frame has at most three columns: pandas
    then groups the frame as it is and aggregates whichever columns are
    not keys. *)
Variable pivot_repeated : DataFrame → value → value → value → result DataFrame.

(** [data.pivot_table(index=, columns=, values=, aggfunc='sum')].  pandas
    checks that the labels exist, narrows a frame of more than three
    columns to [data[[index, columns, values]]], groups by (index,
    columns), sums and unstacks.  In the narrowed frame a label given twice
    names two columns, and [groupby] refuses it. *)
Definition pivot_table (data : DataFrame) (index_ columns_ values_ : value)
    : result DataFrame :=
  match getitem data values_, getitem data index_, getitem data columns_ with
  | Raise e, _, _ => Raise e
  | _, Raise e, _ => Raise e
  | _, _, Raise e => Raise e
  | Ok ys, Ok xs, Ok gs =>
      if decide (NoDup [index_; columns_; values_]) then
        Ok (pivot_records (records xs gs ys) (dtype ys))
      else if decide (3 < length (columns data)) then
        let twice :=
          if decide (index_ ∈ [columns_; values_]) then index_ else columns_ in
        Raise (ValueError ("Grouper for '" +:+ to_str twice +:+ "' not 1-dimensional"))
      else pivot_repeated data index_ columns_ values_
  end.

(** What [load_data] returns for a file: the stored frame, or what the
    parser makes of the file. *)
Definition loaded (s : state) (file : UploadedFile) : result DataFrame :=
  match cache s !! file_id file with
  | Some df => Ok df
  | None => read_csv file
  end.

(** The state once the parser has run on a file: the call is logged, and
    a frame is stored under the file. *)
Definition parsed_once (file : UploadedFile) (s : state) : state :=
  {| cache := cache s; parsed := parsed s ++ [file];
     heap := heap s; page := page s |}.

Definition stored (file : UploadedFile) (df : DataFrame) (s : state) : state :=
  {| cache := <[file_id file := df]> (cache s); parsed := parsed s;
     heap := heap s; page := page s |}.

(** [@st.cache_data def load_data(file): return pd.read_csv(file)]: the
    parser runs when the store has no entry for the file; its frame is
    stored; every call hands out a frame of its own. *)
Definition load_data (file : UploadedFile) : M ref := λ s,
  match cache s !! file_id file with
  | Some df => alloc df s
  | None =>
      match read_csv file with
      | Ok df => alloc df (stored file df (parsed_once file s))
      | Raise e => (parsed_once file s, Raise e)
      end
  end.

(** The store and the log [load_data] leaves. *)
Definition after_load (file : UploadedFile) (s : state) : state :=
  match cache s !! file_id file with
  | Some _ => s
  | None =>
      match read_csv file with
      | Ok df => stored file df (parsed_once file s)
      | Raise _ => parsed_once file s
      end
  end.

(** Lines 29-32: the three metrics. *)
Definition metrics (df : ref) : M () :=
  '(rows, cols) ← reading shape df;
  render (Metric "Total Rows" (format_thousands rows));;
  render (Metric "Total Columns" (pretty cols));;
  na ← deriving DataFrame_isna df;
  missing ← reading (λ d, Series_sum (DataFrame_sum d)) na;
  render (Metric "Missing Values" (pretty missing)).

(** Lines 35-36: the preview. *)
Definition preview (df : ref) : M () :=
  render (Expander "Values Preview (Click to expand)");;
  head ← deriving DataFrame_head df;
  shown ← deref head;
  render (Dataframe shown).

(** Lines 81-98: filter, pivot, chart. *)
Definition aggregate (df : ref) (x_axis y_axis color_col : value)
    (selected_items : list value) : M ref :=
  d ← deref df;
  col ← lift_result (getitem d color_col);
  filtered_df ← alloc (getitem_mask d (isin col selected_items));
  f ← deref filtered_df;
  table ← lift_result (pivot_table f x_axis color_col y_axis);
  alloc table.

Definition chart (df : ref) (x_axis y_axis color_col : value)
    (selected_items : list value) : M () :=
  chart_data ← aggregate df x_axis y_axis color_col selected_items;
  shown ← deref chart_data;
  render (BarChart shown);;
  render (Expander "See chart data");;
  render (Dataframe shown).

(** Lines 39-103: the plotting section. *)
Definition plotting (df : ref) (w : widgets) : M () :=
  render Divider;;
  render (Subheader "Visualize Your Data");;
  numeric ← deriving (select_dtypes [float64; int64]) df;
  numeric_cols ← reading columns_tolist numeric;
  all_cols ← reading columns_tolist df;
  if decide (numeric_cols ≠ []) then
    let default_x := default_index (Str "wm_yr_wk") all_cols in
    x_axis ← selectbox "X-Axis (Time)" all_cols default_x (x_choice w);
    let default_y := default_index (Str "Week_of_Supply") numeric_cols in
    y_axis ← selectbox "Y-Axis (Value)" numeric_cols default_y (y_choice w);
    let default_color := default_index (Str "walmart_item_number") all_cols in
    color_col ← selectbox "Color Code By" all_cols default_color (color_choice w);
    render (Markdown ("### Filter by " +:+ to_str color_col));;
    render (InfoBox "Select specific items to compare. Showing top 5 by default.");;
    unique_items ← (d ← deref df; col ← lift_result (getitem d color_col);
                    mret (unique col));
    selected_items ←
      multiselect ("Choose specific " +:+ to_str color_col +:+ "s to view:")
        unique_items (take 5 unique_items) (items_choice w);
    if decide (selected_items ≠ []) then
      chart df x_axis y_axis color_col selected_items
    else
      render (WarningBox select_one_warning)
  else
    render (WarningBox no_numeric_warning).

(** Lines 27-103: what the script does with the loaded frame. *)
Definition process (df : ref) (w : widgets) : M () :=
  metrics df;; preview df;; plotting df w.

(** Lines 23-103: the body of the [try]. *)
Definition guarded (file : UploadedFile) (w : widgets) : M () :=
  df ← load_data file; process df w.

(** The script. *)
Definition main (uploaded_file : option UploadedFile) (w : widgets) : M () :=
  render (Title "📊 My Custom Data Dashboard");;
  render (SidebarHeader "Upload Data");;
  render (FileUploader "Upload your CSV file");;
  match uploaded_file with
  | Some file =>
      try_except (guarded file w) (λ e, render (ErrorBox (error_text e)))
  | None => render (InfoBox waiting)
  end.

(** One execution: the store and the parser log live on from the
    executions before, the frames and the page start empty. *)
Definition rerun (s : state) (uploaded_file : option UploadedFile) (w : widgets)
    : state * result () :=
  main uploaded_file w (fresh s).

(** * Properties *)

(** ** Lists, masks and lookups *)

Lemma elem_of_unique_go seen l v :
  v ∈ unique_go seen l ↔ v ∈ l ∧ v ∉ seen.
Proof.
  revert seen. induction l as [|a l IH]; intros seen; simpl.
  - set_solver.
  - case_decide as Ha.
    + rewrite IH. set_solver.
    + rewrite elem_of_cons, IH. 
      destruct (decide (v = a)) as [->|]; set_solver.
Qed.

Lemma NoDup_unique_go seen l : NoDup (unique_go seen l).
Proof.
  revert seen. induction l as [|a l IH]; intros seen; simpl.
  - constructor.
  - case_decide; [apply IH|].
    constructor; [|apply IH].
    rewrite elem_of_unique_go. set_solver.
Qed.


Lemma mask_select_zip {A B} (m : list bool) (a : list A) (b : list B) :
  mask_select m (zip a b) = zip (mask_select m a) (mask_select m b).
Proof.
  revert a b. induction m as [|c m IH]; intros [|x a] [|y b]; simpl; try done.
  - by destruct c; rewrite ?zip_with_nil_r.
  - destruct c; simpl; by rewrite IH.
Qed.

Lemma mask_select_fmap {A B} (f : B → bool) (ks : list B) (l : list A) :
  mask_select (f <$> ks) l = snd <$> filter (λ p, f p.1 = true) (zip ks l).
Proof.
  revert l. induction ks as [|k ks IH]; intros [|x l]; simpl; try done.
  rewrite filter_cons, IH.
  destruct (decide (f (k, x).1 = true)) as [Hk|Hk]; simpl in Hk.
  - by rewrite Hk.
  - by apply not_true_is_false in Hk as ->.
Qed.

Lemma getitem_Ok df k s :
  getitem df k = Ok s → s ∈ columns df ∧ name s = k.
Proof.
  unfold getitem. destruct (list_find _ _) as [[i s']|] eqn:Hf; [|done].
  intros [= ->]. apply list_find_Some in Hf as (Hi & Hn & _).
  split; [by eapply list_elem_of_lookup_2|done].
Qed.

Lemma getitem_elem_of df k :
  k ∈ columns_tolist df → ∃ s, getitem df k = Ok s.
Proof.
  unfold columns_tolist, getitem. intros (s & -> & Hs)%list_elem_of_fmap.
  destruct (list_find_elem_of (λ s', name s' = name s) (columns df) s Hs eq_refl)
    as [[i s'] ->]. by eexists.
Qed.

Lemma getitem_mask_getitem df m k s :
  getitem df k = Ok s → getitem (getitem_mask df m) k = Ok (Series_mask m s).
Proof.
  unfold getitem, getitem_mask. simpl. rewrite list_find_fmap.
  unfold compose. simpl.
  destruct (list_find _ _) as [[i s']|]; [|done]. by intros [= ->].
Qed.

Lemma mask_select_isin (sel : list value) X G Y :
  mask_select ((λ v, bool_decide (v ∈ sel)) <$> G) (zip (zip X G) Y)
  = filter (λ r, rec_g r ∈ sel) (zip (zip X G) Y).
Proof.
  revert X Y. induction G as [|g G IH]; intros [|x X] [|y Y]; simpl; try done.
  rewrite filter_cons. unfold rec_g at 1. simpl. rewrite IH.
  case_bool_decide; by case_decide.
Qed.

Lemma records_mask xs gs ys m :
  records (Series_mask m xs) (Series_mask m gs) (Series_mask m ys)
  = mask_select m (records xs gs ys).
Proof. unfold records, Series_mask. cbn [values]. by rewrite !mask_select_zip. Qed.

Lemma records_isin xs gs ys sel :
  mask_select (isin gs sel) (records xs gs ys)
  = filter (λ r, rec_g r ∈ sel) (records xs gs ys).
Proof. apply mask_select_isin. Qed.

Lemma position_Some x l i : position x l = Some i → l !! i = Some x.
Proof.
  unfold position. destruct (list_find _ _) as [[j y]|] eqn:Hf; [|done].
  simpl. intros [= ->]. by apply list_find_Some in Hf as (Hi & -> & _).
Qed.

Lemma position_elem_of x l : x ∈ l → is_Some (position x l).
Proof.
  intros Hx. unfold position.
  destruct (list_find_elem_of (λ y, y = x) l x Hx eq_refl) as [[i y] ->].
  by eexists.
Qed.

Lemma position_None x l : position x l = None → x ∉ l.
Proof.
  intros Hp Hx. apply position_elem_of in Hx as [i Hi]. congruence.
Qed.

Lemma elem_of_sorted_unique x (l : list value) :
  x ∈ merge_sort value_le (unique_go [] l) ↔ x ∈ l.
Proof.
  rewrite merge_sort_Permutation, elem_of_unique_go. set_solver.
Qed.

Lemma NoDup_sorted_unique (l : list value) :
  NoDup (merge_sort value_le (unique_go [] l)).
Proof. rewrite merge_sort_Permutation. apply NoDup_unique_go. Qed.









(** ** The aggregator *)

(** The frame the pivot is handed holds the rows of the kept groups. *)
Lemma records_filtered selected_items xs gs ys :
  records (Series_mask (isin gs selected_items) xs)
          (Series_mask (isin gs selected_items) gs)
          (Series_mask (isin gs selected_items) ys)
  = filter (λ r, rec_g r ∈ selected_items) (records xs gs ys).
Proof. by rewrite records_mask, records_isin. Qed.

Lemma pivot_table_distinct data index_ columns_ values_ xs gs ys :
  getitem data index_ = Ok xs →
  getitem data columns_ = Ok gs →
  getitem data values_ = Ok ys →
  NoDup [index_; columns_; values_] →
  pivot_table data index_ columns_ values_
  = Ok (pivot_records (records xs gs ys) (dtype ys)).
Proof.
  intros Hx Hg Hy Hnd. unfold pivot_table. rewrite Hx, Hg, Hy.
  by rewrite decide_True.
Qed.



(** ** The multiselect *)





(** ** Running the script *)

Lemma extend_extend fs1 es1 fs2 es2 s :
  extend fs2 es2 (extend fs1 es1 s) = extend (fs1 ++ fs2) (es1 ++ es2) s.
Proof. unfold extend. simpl. by rewrite !app_assoc. Qed.

Lemma lookup_extend fs es s (r : ref) d :
  heap s !! r = Some d → heap (extend fs es s) !! r = Some d.
Proof. simpl. apply lookup_app_l_Some. Qed.

Lemma lookup_extend_at fs es s k d :
  fs !! k = Some d → heap (extend fs es s) !! (length (heap s) + k) = Some d.
Proof. intros Hk. simpl. by rewrite lookup_app_r, Nat.add_sub' by lia. Qed.

Lemma lookup_extend_first d fs es s :
  heap (extend (d :: fs) es s) !! length (heap s) = Some d.
Proof. simpl. by apply list_lookup_middle. Qed.

Lemma length_heap_extend fs es s :
  length (heap (extend fs es s)) = length (heap s) + length fs.
Proof. simpl. apply length_app. Qed.

Lemma bind_run {A B} (m : M A) (f : A → M B) s s' a :
  m s = (s', Ok a) → (m ≫= f) s = f a s'.
Proof. intros Hm. unfold mbind, M_bind. by rewrite Hm. Qed.

Lemma bind_raise {A B} (m : M A) (f : A → M B) s s' e :
  m s = (s', Raise e) → (m ≫= f) s = (s', Raise e).
Proof. intros Hm. unfold mbind, M_bind. by rewrite Hm. Qed.

Lemma render_run e s : render e s = (extend [] [e] s, Ok ()).
Proof. unfold render, extend. by rewrite app_nil_r. Qed.

Lemma alloc_run d s : alloc d s = (extend [d] [] s, Ok (length (heap s))).
Proof. unfold alloc, extend. by rewrite app_nil_r. Qed.

Lemma deref_run r d s : heap s !! r = Some d → deref r s = (s, Ok d).
Proof. intros Hr. unfold deref. by rewrite Hr. Qed.

Lemma reading_run {A} (f : DataFrame → A) r d s :
  heap s !! r = Some d → reading f r s = (s, Ok (f d)).
Proof. intros Hr. unfold reading. by rewrite (bind_run _ _ _ _ _ (deref_run _ _ _ Hr)). Qed.

Lemma deriving_run f r d s :
  heap s !! r = Some d →
  deriving f r s = (extend [f d] [] s, Ok (length (heap s))).
Proof.
  intros Hr. unfold deriving.
  rewrite (bind_run _ _ _ _ _ (deref_run _ _ _ Hr)). apply alloc_run.
Qed.

Lemma selectbox_run label options i choice s :
  selectbox label options i choice s
  = (extend [] [Selectbox label options i] s, Ok (option_at options i choice)).
Proof. unfold selectbox. by erewrite bind_run by apply render_run. Qed.

Lemma multiselect_run label options defaults choice s :
  multiselect label options defaults choice s
  = (extend [] [Multiselect label options defaults] s,
     Ok (chosen options defaults choice)).
Proof. unfold multiselect. by erewrite bind_run by apply render_run. Qed.

Ltac frame_found :=
  first [ eassumption
        | apply lookup_extend_first
        | apply lookup_extend_at; reflexivity
        | apply lookup_extend; eassumption ].

Ltac run1 :=
  first
    [ erewrite bind_run; [|apply render_run]
    | erewrite bind_run; [|apply selectbox_run]
    | erewrite bind_run; [|apply multiselect_run]
    | erewrite bind_run; [|apply alloc_run]
    | erewrite bind_run; [|apply deref_run; frame_found]
    | erewrite bind_run; [|apply reading_run; frame_found]
    | erewrite bind_run; [|apply deriving_run; frame_found] ];
  rewrite ?extend_extend, ?length_heap_extend; cbn [app length].

Lemma metrics_run df T s :
  heap s !! df = Some T →
  metrics df s = (extend [DataFrame_isna T] (take 3 (summary T)) s, Ok ()).
Proof.
  intros Hdf. unfold metrics. run1. unfold shape at 1. cbv beta iota.
  do 4 run1. by rewrite render_run, extend_extend.
Qed.

Lemma preview_run df T s :
  heap s !! df = Some T →
  preview df s = (extend [DataFrame_head T] (drop 3 (summary T)) s, Ok ()).
Proof.
  intros Hdf. unfold preview. do 3 run1. by rewrite render_run, extend_extend.
Qed.

Lemma aggregate_run df T s x_axis y_axis color_col selected_items col :
  heap s !! df = Some T →
  getitem T color_col = Ok col →
  aggregate df x_axis y_axis color_col selected_items s =
    match pivot_table (getitem_mask T (isin col selected_items))
            x_axis color_col y_axis with
    | Ok table =>
        (extend [getitem_mask T (isin col selected_items); table] [] s,
         Ok (length (heap s) + 1))
    | Raise e => (extend [getitem_mask T (isin col selected_items)] [] s, Raise e)
    end.
Proof.
  intros Hdf Hcol. unfold aggregate. run1. rewrite Hcol.
  erewrite bind_run by reflexivity. do 2 run1.
  destruct (pivot_table _ x_axis color_col y_axis) as [table|e].
  - erewrite bind_run by reflexivity.
    by rewrite alloc_run, extend_extend, length_heap_extend.
  - by erewrite bind_raise by reflexivity.
Qed.

Lemma chart_run df T s x_axis y_axis color_col selected_items col :
  heap s !! df = Some T →
  getitem T color_col = Ok col →
  chart df x_axis y_axis color_col selected_items s =
    match pivot_table (getitem_mask T (isin col selected_items))
            x_axis color_col y_axis with
    | Ok table =>
        (extend [getitem_mask T (isin col selected_items); table]
           (chart_elements table) s, Ok ())
    | Raise e => (extend [getitem_mask T (isin col selected_items)] [] s, Raise e)
    end.
Proof.
  intros Hdf Hcol. unfold chart.
  pose proof (aggregate_run df T s x_axis y_axis color_col selected_items
                col Hdf Hcol) as Hrun.
  destruct (pivot_table _ x_axis color_col y_axis) as [table|e].
  - erewrite bind_run by exact Hrun. do 3 run1.
    by rewrite render_run, extend_extend.
  - by erewrite bind_raise by exact Hrun.
Qed.

(** A select box over a list that is not empty returns one of its
    entries. *)
Lemma default_index_lt preferred cols :
  cols ≠ [] → default_index preferred cols < length cols.
Proof.
  intros Hne. unfold default_index. case_decide as Hin.
  - destruct (position_elem_of _ _ Hin) as [i Hi]. rewrite Hi. simpl.
    apply position_Some in Hi. by eapply lookup_lt_Some.
  - destruct cols; [done|]. simpl. lia.
Qed.

Lemma option_at_elem_of options i choice :
  i < length options → option_at options i choice ∈ options.
Proof.
  intros Hi. unfold option_at.
  assert (picked options i choice < length options) as Hp.
  { unfold picked. destruct choice as [j|]; [|done]. by case_decide. }
  apply lookup_lt_is_Some in Hp as [v Hv]. rewrite Hv. simpl.
  by eapply list_elem_of_lookup_2.
Qed.

Lemma numeric_cols_subseteq T : numeric_cols T ⊆ all_cols T.
Proof.
  unfold numeric_cols, all_cols, columns_tolist, select_dtypes. simpl.
  intros v (s & -> & Hs)%list_elem_of_fmap.
  apply list_elem_of_filter in Hs as [_ Hs].
  apply list_elem_of_fmap. by exists s.
Qed.

Lemma all_cols_nonempty T : numeric_cols T ≠ [] → all_cols T ≠ [].
Proof.
  intros Hn Ha. destruct (numeric_cols T) as [|v l] eqn:Hv; [done|].
  assert (v ∈ all_cols T) as Hin.
  { apply numeric_cols_subseteq. rewrite Hv. left. }
  rewrite Ha in Hin. by apply elem_of_nil in Hin.
Qed.

Lemma color_col_found T w :
  numeric_cols T ≠ [] → ∃ col, getitem T (color_col_of T w) = Ok col.
Proof.
  intros Hn. apply getitem_elem_of. fold (all_cols T).
  apply option_at_elem_of, default_index_lt. by apply all_cols_nonempty.
Qed.

Lemma y_axis_numeric T w :
  numeric_cols T ≠ [] → y_axis_of T w ∈ numeric_cols T.
Proof. intros Hn. by apply option_at_elem_of, default_index_lt. Qed.

Lemma x_axis_found T w :
  numeric_cols T ≠ [] → x_axis_of T w ∈ all_cols T.
Proof.
  intros Hn. apply option_at_elem_of, default_index_lt.
  by apply all_cols_nonempty.
Qed.

Lemma plotting_no_numeric df T s w :
  heap s !! df = Some T →
  numeric_cols T = [] →
  plotting df w s
  = (extend [select_dtypes [float64; int64] T]
       (plot_head ++ [WarningBox no_numeric_warning]) s, Ok ()).
Proof.
  intros Hdf Hn. unfold plotting. do 5 run1.
  fold (numeric_cols T). rewrite decide_False by (by intros []).
  by rewrite render_run, extend_extend.
Qed.

Lemma plotting_pickers df T s w col :
  heap s !! df = Some T →
  numeric_cols T ≠ [] →
  getitem T (color_col_of T w) = Ok col →
  plotting df w s =
    let s' := extend [select_dtypes [float64; int64] T]
                (plot_head ++ pickers T w col) s in
    if decide (selected_items_of col w ≠ []) then
      chart df (x_axis_of T w) (y_axis_of T w) (color_col_of T w)
        (selected_items_of col w) s'
    else (extend [] [WarningBox select_one_warning] s', Ok ()).
Proof.
  intros Hdf Hn Hcol. unfold plotting. do 5 run1.
  fold (numeric_cols T) (all_cols T). rewrite decide_True by done.
  do 5 run1. fold (x_axis_of T w) (y_axis_of T w) (color_col_of T w).
  erewrite (bind_run (deref df ≫= _)).
  2:{ run1. rewrite Hcol. erewrite bind_run by reflexivity. reflexivity. }
  run1. fold (selected_items_of col w). cbv zeta.
  case_decide; [reflexivity|]. by rewrite render_run, extend_extend.
Qed.

(** The frames the script builds before it reaches the pickers. *)
Lemma process_run df T s w :
  heap s !! df = Some T →
  process df w s
  = plotting df w (extend [DataFrame_isna T; DataFrame_head T] (summary T) s).
Proof.
  intros Hdf. unfold process.
  erewrite bind_run by (by apply metrics_run).
  erewrite bind_run by (apply preview_run; by apply lookup_extend).
  by rewrite extend_extend.
Qed.

(** Every way the script can go once the frame is loaded. *)
Lemma process_cases df T s w :
  heap s !! df = Some T →
  let numeric := select_dtypes [float64; int64] T in
  let before := [DataFrame_isna T; DataFrame_head T; numeric] in
  (numeric_cols T = []
   ∧ process df w s
     = (extend before (summary T ++ plot_head ++ [WarningBox no_numeric_warning]) s,
        Ok ()))
  ∨ ∃ col,
      numeric_cols T ≠ []
      ∧ getitem T (color_col_of T w) = Ok col
      ∧ let shown := summary T ++ plot_head ++ pickers T w col in
        let filtered_df := getitem_mask T (isin col (selected_items_of col w)) in
        (selected_items_of col w = []
         ∧ process df w s
           = (extend before (shown ++ [WarningBox select_one_warning]) s, Ok ()))
        ∨ (selected_items_of col w ≠ []
           ∧ ∃ chart_data,
               pivot_table filtered_df (x_axis_of T w) (color_col_of T w)
                 (y_axis_of T w) = Ok chart_data
               ∧ process df w s
                 = (extend (before ++ [filtered_df; chart_data])
                      (shown ++ chart_elements chart_data) s, Ok ()))
        ∨ (selected_items_of col w ≠ []
           ∧ ∃ e,
               pivot_table filtered_df (x_axis_of T w) (color_col_of T w)
                 (y_axis_of T w) = Raise e
               ∧ process df w s = (extend (before ++ [filtered_df]) shown s, Raise e)).
Proof.
  intros Hdf numeric before. rewrite (process_run df T s w Hdf).
  assert (heap (extend [DataFrame_isna T; DataFrame_head T] (summary T) s) !! df
          = Some T) as Hdf' by (by apply lookup_extend).
  destruct (decide (numeric_cols T = [])) as [Hn|Hn].
  { left. split; [done|].
    by rewrite (plotting_no_numeric df T _ w Hdf' Hn), extend_extend. }
  right. destruct (color_col_found T w Hn) as [col Hcol]. exists col.
  split; [done|]. split; [done|]. intros shown filtered_df.
  rewrite (plotting_pickers df T _ w col Hdf' Hn Hcol). cbv zeta.
  rewrite extend_extend. case_decide as Hsel.
  - right.
    erewrite chart_run; [|by apply lookup_extend|done]. fold filtered_df.
    destruct (pivot_table filtered_df _ _ _) as [chart_data|e] eqn:Hp.
    + left. split; [done|]. exists chart_data. split; [done|].
      rewrite extend_extend. unfold shown. by rewrite <-!app_assoc.
    + right. split; [done|]. exists e. split; [done|].
      rewrite extend_extend, app_nil_r. unfold shown. by rewrite <-!app_assoc.
  - left. split; [done|].
    rewrite extend_extend. unfold shown. by rewrite <-!app_assoc, app_nil_r.
Qed.

(** ** Loading *)

Lemma heap_after_load file s : heap (after_load file s) = heap s.
Proof. unfold after_load. by repeat case_match. Qed.

Lemma page_after_load file s : page (after_load file s) = page s.
Proof. unfold after_load. by repeat case_match. Qed.


Lemma load_data_run file s T :
  loaded s file = Ok T →
  load_data file s = (extend [T] [] (after_load file s), Ok (length (heap s))).
Proof.
  unfold loaded, load_data, after_load.
  destruct (cache s !! file_id file) eqn:Hc.
  - intros [= ->]. apply alloc_run.
  - intros ->. by rewrite alloc_run.
Qed.

Lemma load_data_raise file s e :
  loaded s file = Raise e →
  load_data file s = (after_load file s, Raise e)
  ∧ after_load file s = parsed_once file s.
Proof.
  unfold loaded, load_data, after_load.
  destruct (cache s !! file_id file) eqn:Hc; [done|]. by intros ->.
Qed.

Lemma rerun_uploaded s file w :
  rerun s (Some file) w
  = try_except (guarded file w) (λ e, render (ErrorBox (error_text e)))
      (extend [] header (fresh s)).
Proof. unfold rerun, main. by do 3 run1. Qed.

(** A run on a file that loads: the frame is the first object of the run,
    and the rest of the run is [process] on it. *)
Lemma guarded_loaded s file w T :
  loaded s file = Ok T →
  let s1 := extend [T] header (after_load file (fresh s)) in
  heap s1 !! 0 = Some T
  ∧ guarded file w (extend [] header (fresh s)) = process 0 w s1.
Proof.
  intros Hl s1. split.
  - unfold s1. simpl. by rewrite heap_after_load.
  - unfold guarded. erewrite bind_run.
    2:{ apply load_data_run. unfold loaded in *. exact Hl. }
    simpl. f_equal. unfold s1, extend, after_load. simpl.
    unfold loaded in Hl. by repeat case_match.
Qed.

Lemma guarded_not_loaded s file w e :
  loaded s file = Raise e →
  guarded file w (extend [] header (fresh s))
  = (parsed_once file (extend [] header (fresh s)), Raise e).
Proof.
  intros Hl. unfold guarded.
  destruct (load_data_raise file (extend [] header (fresh s)) e) as [Hr Ha];
    [exact Hl|].
  erewrite bind_raise by exact Hr. by rewrite Ha.
Qed.

Lemma page_loaded fs es file s T :
  page (extend fs es (extend [T] header (after_load file (fresh s))))
  = header ++ es.
Proof. simpl. by rewrite page_after_load. Qed.

Lemma heap_loaded fs es file s T :
  heap (extend fs es (extend [T] header (after_load file (fresh s))))
  = T :: fs.
Proof. simpl. by rewrite heap_after_load. Qed.

Lemma Forall_not_chart_shown T w col :
  Forall (λ e, ¬ is_chart e) (header ++ summary T ++ plot_head ++ pickers T w col).
Proof. repeat constructor; by intros []. Qed.

(** ** What a run shows *)


(** C4: with an empty multiselect the run ends normally; after the
    pickers it shows the warning and nothing else, no chart and no error
    box, and it builds no filtered or pivoted frame. *)
Theorem empty_selection_warns
    (s : state) (file : UploadedFile) (w : widgets) (T : DataFrame)
    (col : Series) :
  loaded s file = Ok T →
  numeric_cols T ≠ [] →
  getitem T (color_col_of T w) = Ok col →
  selected_items_of col w = [] →
  let out := rerun s (Some file) w in
  out.2 = Ok ()
  ∧ page out.1
    = header ++ summary T ++ plot_head ++ pickers T w col
      ++ [WarningBox select_one_warning]
  ∧ Forall (λ e, ¬ is_chart e ∧ ¬ is_error e) (page out.1)
  ∧ heap out.1
    = [T; DataFrame_isna T; DataFrame_head T; select_dtypes [float64; int64] T].
Proof.
  intros Hl Hn Hcol Hsel out. unfold out. rewrite rerun_uploaded.
  unfold try_except. destruct (guarded_loaded s file w T Hl) as [H0 ->].
  destruct (process_cases 0 T _ w H0) as [[Hn' _]|(col' & _ & Hcol' & Hcases)];
    [done|].
  rewrite Hcol in Hcol'. injection Hcol' as <-. cbv zeta in Hcases.
  destruct Hcases as [[_ ->]|[[Hsel' _]|[Hsel' _]]]; [|done..].
  cbn [fst snd]. rewrite page_loaded, heap_loaded. rewrite <-!app_assoc.
  repeat split. repeat constructor; by intros [].
Qed.

(** C8: a run never ends in an exception.  When the body of the [try]
    raises, the run stops there: the page is what was rendered up to that
    point followed by the error box with the text of the exception, and
    it holds no chart.  A file the parser rejects shows the error box
    right after the uploader. *)
Theorem exceptions_are_shown_not_raised
    (s : state) (uploaded_file : option UploadedFile) (w : widgets) :
  (rerun s uploaded_file w).2 = Ok ()
  ∧ (∀ file s' e,
       uploaded_file = Some file →
       guarded file w (extend [] header (fresh s)) = (s', Raise e) →
       (rerun s uploaded_file w).1 = extend [] [ErrorBox (error_text e)] s'
       ∧ Forall (λ e, ¬ is_chart e) (page (rerun s uploaded_file w).1))
  ∧ (∀ file e,
       uploaded_file = Some file →
       loaded s file = Raise e →
       page (rerun s uploaded_file w).1 = header ++ [ErrorBox (error_text e)]).
Proof.
  split; [|split].
  - destruct uploaded_file as [file|].
    + rewrite rerun_uploaded. unfold try_except.
      by destruct (guarded file w _) as [s' [[]|e]].
    + unfold rerun, main. by do 3 run1.
  - intros file s' e -> Hraise. rewrite rerun_uploaded. unfold try_except.
    rewrite Hraise. rewrite render_run. split; [done|].
    cbn [fst page extend]. apply Forall_app.
    split; [|constructor; [by intros []|constructor]].
    destruct (loaded s file) as [T|e'] eqn:Hl.
    + destruct (guarded_loaded s file w T Hl) as [H0 Hg].
      rewrite Hg in Hraise.
      destruct (process_cases 0 T _ w H0)
        as [[_ Hp]|(col & _ & _ & [[_ Hp]|[(_ & t & _ & Hp)|(_ & e'' & _ & Hp)]])];
        rewrite Hp in Hraise; try done.
      injection Hraise as <- _. rewrite page_loaded.
      apply Forall_not_chart_shown.
    + rewrite (guarded_not_loaded s file w e' Hl) in Hraise.
      injection Hraise as <- _. repeat constructor; by intros [].
  - intros file e -> Hl. rewrite rerun_uploaded. unfold try_except.
    by rewrite (guarded_not_loaded s file w e Hl), render_run.
Qed.

(** C9: nothing the script does after loading changes the loaded frame:
    the frame is still where it was, the frames built from it are new
    objects after the existing ones, and the store of [load_data] is as it
    was; the frame the aggregation returns is another object than the
    loaded one. *)
Theorem loaded_frame_is_never_modified
    (df : ref) (T : DataFrame) (s : state) (w : widgets) :
  heap s !! df = Some T →
  (let s' := (process df w s).1 in
   heap s' !! df = Some T
   ∧ heap s `prefix_of` heap s'
   ∧ cache s' = cache s)
  ∧ (∀ x_axis y_axis color_col selected_items s' chart_data,
       aggregate df x_axis y_axis color_col selected_items s
       = (s', Ok chart_data) →
       chart_data ≠ df
       ∧ heap s' !! df = Some T
       ∧ heap s' !! (chart_data - 1)
         = Some (getitem_mask T
                   (match getitem T color_col with
                    | Ok col => isin col selected_items
                    | Raise _ => []
                    end))).
Proof.
  intros Hdf. split.
  - assert (∃ fs es r, process df w s = (extend fs es s, r)) as (fs & es & r & ->).
    { destruct (process_cases df T s w Hdf)
        as [[_ Hp]|(col & _ & _ & [[_ Hp]|[(_ & t & _ & Hp)|(_ & e & _ & Hp)]])];
        rewrite Hp; by do 3 eexists. }
    cbn [fst]. split; [by apply lookup_extend|]. split; [|done].
    simpl. by apply prefix_app_r.
  - intros x_axis y_axis color_col selected_items s' chart_data.
    destruct (getitem T color_col) as [col|e] eqn:Hcol.
    + rewrite (aggregate_run df T s _ _ _ _ col Hdf Hcol).
      destruct (pivot_table _ _ _ _) as [table|e]; [|done].
      intros [= <- <-]. apply lookup_lt_Some in Hdf as Hlt.
      split; [lia|]. split; [by apply lookup_extend|].
      replace (length (heap s) + 1 - 1) with (length (heap s)) by lia.
      apply lookup_extend_first.
    + unfold aggregate. run1. rewrite Hcol.
      by erewrite bind_raise by reflexivity.
Qed.


(** ** The metrics *)

Lemma sum_cells_isna (l : list value) :
  sum_cells ((λ v, Boolean (isna v)) <$> l) = Z.of_nat (count_missing l).
Proof.
  induction l as [|v l IH]; [done|].
  change (sum_cells ((λ v, Boolean (isna v)) <$> v :: l))
    with (cell_num (Boolean (isna v))
          + sum_cells ((λ v, Boolean (isna v)) <$> l))%Z.
  rewrite IH. unfold count_missing. rewrite filter_cons.
  destruct (isna v); case_decide; try done; simpl; lia.
Qed.

Lemma sum_cells_cons v (l : list value) :
  sum_cells (v :: l) = (cell_num v + sum_cells l)%Z.
Proof. done. Qed.

Lemma missing_values_columns T :
  missing_values T
  = Z.of_nat (sum_list ((λ s, count_missing (values s)) <$> columns T)).
Proof.
  unfold missing_values, Series_sum, DataFrame_sum, DataFrame_isna.
  cbn [values columns]. induction (columns T) as [|s cols IH]; [done|].
  rewrite !fmap_cons, sum_cells_cons, IH. cbn [cell_num sum_list].
  unfold Series_sum at 1. cbn [values]. rewrite sum_cells_isna.
  unfold id. lia.
Qed.

Lemma count_missing_all_cells T :
  count_missing (all_cells T)
  = sum_list ((λ s, count_missing (values s)) <$> columns T).
Proof.
  unfold all_cells. induction (columns T) as [|s cols IH]; [done|].
  rewrite !fmap_cons. cbn [mjoin list_join sum_list]. rewrite <-IH.
  unfold count_missing. by rewrite filter_app, length_app.
Qed.

Lemma count_missing_none (l : list value) :
  Forall (λ v, isna v = false) l → count_missing l = 0.
Proof.
  unfold count_missing. induction 1 as [|v l Hv _ IH]; [done|].
  rewrite filter_cons. case_decide; [congruence|done].
Qed.

Lemma length_all_cells T :
  wf_frame T → length (all_cells T) = length (columns T) * length (index T).
Proof.
  intros [Hlen _]. unfold all_cells.
  rewrite length_join, <-list_fmap_compose.
  by apply sum_list_fmap_same.
Qed.

(** The digits of a number hold no separator. *)
Lemma pretty_N_go_no_comma x s :
  ","%char ∉ String.list_ascii_of_string s →
  ","%char ∉ String.list_ascii_of_string (pretty_N_go x s).
Proof.
  revert s. induction (N.lt_wf_0 x) as [x _ IH]; intros s Hs.
  assert (x = 0 ∨ 0 < x)%N as [->|?] by lia.
  - by rewrite pretty_N_go_0.
  - rewrite pretty_N_go_step by done. apply IH.
    { by apply N.div_lt. }
    simpl. rewrite not_elem_of_cons. split; [|done].
    unfold pretty_N_char. by repeat case_match.
Qed.

Lemma pretty_nat_no_comma (n : nat) :
  ","%char ∉ String.list_ascii_of_string (pretty n).
Proof.
  unfold pretty, pretty_nat, pretty, pretty_N. case_decide.
  - simpl. rewrite not_elem_of_cons. split; [done|]. apply not_elem_of_nil.
  - apply pretty_N_go_no_comma. apply not_elem_of_nil.
Qed.

Lemma filter_group3 (l : list ascii) :
  filter (λ c, c ≠ ","%char) (group3 l) = filter (λ c, c ≠ ","%char) l.
Proof.
  remember (length l) as n eqn:Hn. revert l Hn.
  induction (lt_wf n) as [n _ IH]; intros l ->.
  destruct l as [|a [|b [|c rest]]]; try done.
  simpl. destruct rest as [|d rest]; [done|].
  rewrite !filter_cons.
  rewrite (IH (length (d :: rest)) ltac:(simpl; lia) (d :: rest) eq_refl).
  rewrite filter_cons. by destruct (decide (","%char ≠ ","%char)).
Qed.

Lemma filter_no_comma (l : list ascii) :
  ","%char ∉ l → filter (λ c, c ≠ ","%char) l = l.
Proof.
  induction l as [|c l IH]; [done|]. rewrite not_elem_of_cons.
  intros [Hc Hl]. rewrite filter_cons, decide_True by done. by rewrite IH.
Qed.

Lemma without_commas_format_thousands (n : nat) :
  without_commas (format_thousands n) = pretty n.
Proof.
  unfold without_commas, format_thousands.
  rewrite String.list_ascii_of_string_of_list_ascii.
  rewrite filter_reverse, filter_group3, filter_reverse, reverse_involutive.
  rewrite filter_no_comma by apply pretty_nat_no_comma.
  apply String.string_of_list_ascii_of_string.
Qed.

Lemma page_rerun_loaded s file w T :
  loaded s file = Ok T →
  ∃ rest, page (rerun s (Some file) w).1 = header ++ summary T ++ rest.
Proof.
  intros Hl. rewrite rerun_uploaded. unfold try_except.
  destruct (guarded_loaded s file w T Hl) as [H0 ->].
  destruct (process_cases 0 T _ w H0)
    as [[_ ->]|(col & _ & _ & [[_ ->]|[(_ & t & _ & ->)|(_ & e & _ & ->)]])];
    eexists; rewrite ?render_run; cbn [fst page extend];
    rewrite page_after_load; cbn [page fresh app];
    rewrite <-?app_assoc; reflexivity.
Qed.

(** C2: the three metrics of a loaded table show its number of rows (with
    thousands separators), its number of columns and its number of
    missing cells; that number is the count of missing cells over all
    cells, which is the sum of the counts of the columns, and 0 for a table
    without a missing cell. *)
Theorem summary_reports_the_counts
    (s : state) (file : UploadedFile) (w : widgets) (T : DataFrame) :
  loaded s file = Ok T →
  let shown := page (rerun s (Some file) w).1 in
  let R := length (index T) in
  let C := length (columns T) in
  Metric "Total Rows" (format_thousands R) ∈ shown
  ∧ without_commas (format_thousands R) = pretty R
  ∧ Metric "Total Columns" (pretty C) ∈ shown
  ∧ Metric "Missing Values" (pretty (missing_values T)) ∈ shown
  ∧ missing_values T = Z.of_nat (count_missing (all_cells T))
  ∧ missing_values T
    = Z.of_nat (sum_list ((λ col, count_missing (values col)) <$> columns T))
  ∧ (Forall (λ v, isna v = false) (all_cells T) → missing_values T = 0%Z)
  ∧ (wf_frame T → length (all_cells T) = C * R).
Proof.
  intros Hl shown R C.
  destruct (page_rerun_loaded s file w T Hl) as [rest Hpage].
  assert (∀ e, e ∈ summary T → e ∈ shown) as Hin.
  { intros e He. unfold shown. rewrite Hpage, !elem_of_app. auto. }
  assert (missing_values T = Z.of_nat (count_missing (all_cells T))) as Hm.
  { by rewrite missing_values_columns, count_missing_all_cells. }
  split; [apply Hin; left|].
  split; [apply without_commas_format_thousands|].
  split; [apply Hin; right; left|].
  split; [apply Hin; do 2 right; left|].
  split; [done|]. split; [apply missing_values_columns|].
  split; [|apply length_all_cells].
  intros Hnone. by rewrite Hm, count_missing_none.
Qed.

(** ** The aggregation and the multiselect in a run *)







(** * Further properties of the script *)

(** ** The select boxes (lines 43-63) *)

Lemma default_index_found preferred cols :
  preferred ∈ cols → cols !! default_index preferred cols = Some preferred.
Proof.
  intros Hin. unfold default_index. rewrite decide_True by done.
  destruct (position_elem_of _ _ Hin) as [i Hi]. rewrite Hi. simpl.
  by apply position_Some.
Qed.

Lemma position_first x l i :
  position x l = Some i → ∀ j, j < i → l !! j ≠ Some x.
Proof.
  unfold position. destruct (list_find _ _) as [[k y]|] eqn:Hf; [|done].
  simpl. intros [= ->]. apply list_find_Some in Hf as (_ & _ & Hfirst).
  intros j Hj Hx. by apply (Hfirst j x).
Qed.

Lemma option_at_untouched preferred cols :
  option_at cols (default_index preferred cols) None
  = if decide (preferred ∈ cols) then preferred else default PyNone (head cols).
Proof.
  unfold option_at, picked. case_decide as Hin.
  - by rewrite default_index_found.
  - unfold default_index. rewrite decide_False by done. by destruct cols.
Qed.

Lemma same_name_same_series (l : list Series) s s' :
  NoDup (name <$> l) → s ∈ l → s' ∈ l → name s = name s' → s = s'.
Proof.
  induction l as [|c l IH]; [by intros _ ?%elem_of_nil|].
  rewrite fmap_cons, NoDup_cons, !elem_of_cons.
  intros [Hc Hl] [->|Hs] [->|Hs'] Hname; [done| | |by apply IH].
  - destruct Hc. rewrite Hname. apply list_elem_of_fmap. by exists s'.
  - destruct Hc. rewrite <-Hname. apply list_elem_of_fmap. by exists s.
Qed.

(** X2: the index a select box is given is the position of the first column
    of the preferred name when there is one, 0 otherwise, and it is always
    a position of the list when the list is not empty. *)
Theorem default_index_is_valid (preferred : value) (cols : list value) :
  (preferred ∈ cols →
   cols !! default_index preferred cols = Some preferred
   ∧ ∀ j, j < default_index preferred cols → cols !! j ≠ Some preferred)
  ∧ (preferred ∉ cols → default_index preferred cols = 0)
  ∧ (cols ≠ [] → default_index preferred cols < length cols).
Proof.
  split; [|split].
  - intros Hin. split; [by apply default_index_found|].
    unfold default_index. rewrite decide_True by done.
    destruct (position_elem_of _ _ Hin) as [i Hi]. rewrite Hi. simpl.
    by apply position_first.
  - intros Hout. unfold default_index. by rewrite decide_False.
  - apply default_index_lt.
Qed.

(** X1: whatever the widgets hold, the X and the group select boxes return
    columns of the table and the Y select box returns a column of the
    table whose dtype is float or integer. *)
Theorem pickers_return_columns (T : DataFrame) (w : widgets) :
  wf_frame T →
  numeric_cols T ≠ [] →
  ∃ xs gs ys,
    getitem T (x_axis_of T w) = Ok xs
    ∧ getitem T (color_col_of T w) = Ok gs
    ∧ getitem T (y_axis_of T w) = Ok ys
    ∧ xs ∈ columns T ∧ gs ∈ columns T ∧ ys ∈ columns T
    ∧ dtype ys ∈ [float64; int64].
Proof.
  intros [_ Hnd] Hn.
  destruct (getitem_elem_of T _ (x_axis_found T w Hn)) as [xs Hx].
  destruct (color_col_found T w Hn) as [gs Hg].
  pose proof (y_axis_numeric T w Hn) as Hy.
  destruct (getitem_elem_of T _ (numeric_cols_subseteq T _ Hy)) as [ys Hys].
  exists xs, gs, ys. repeat split; try done;
    try (by eapply getitem_Ok).
  unfold numeric_cols, columns_tolist, select_dtypes in Hy. simpl in Hy.
  apply list_elem_of_fmap in Hy as (s & Hname & Hs).
  apply list_elem_of_filter in Hs as [Hdt Hs].
  apply getitem_Ok in Hys as [Hin Hname'].
  assert (ys = s) as -> by (apply (same_name_same_series (columns T)); congruence).
  done.
Qed.

(** X3: before the user touches a select box it returns the well-known column
    when the table has it, and the first entry of its list otherwise. *)
Theorem pickers_default_to_known_names (T : DataFrame) (w : widgets) :
  (x_choice w = None →
   x_axis_of T w
   = if decide (Str "wm_yr_wk" ∈ all_cols T) then Str "wm_yr_wk"
     else default PyNone (head (all_cols T)))
  ∧ (y_choice w = None →
     y_axis_of T w
     = if decide (Str "Week_of_Supply" ∈ numeric_cols T) then Str "Week_of_Supply"
       else default PyNone (head (numeric_cols T)))
  ∧ (color_choice w = None →
     color_col_of T w
     = if decide (Str "walmart_item_number" ∈ all_cols T)
       then Str "walmart_item_number"
       else default PyNone (head (all_cols T))).
Proof.
  unfold x_axis_of, y_axis_of, color_col_of.
  repeat split; intros ->; apply option_at_untouched.
Qed.

(** X4: on a table without the well-known names whose first column is
    numeric, the three untouched select boxes all return that first
    column. *)
Theorem untouched_pickers_can_coincide
    (T : DataFrame) (w : widgets) (first : Series) (others : list Series) :
  columns T = first :: others →
  dtype first ∈ [float64; int64] →
  Str "wm_yr_wk" ∉ all_cols T →
  Str "Week_of_Supply" ∉ numeric_cols T →
  Str "walmart_item_number" ∉ all_cols T →
  x_choice w = None → y_choice w = None → color_choice w = None →
  x_axis_of T w = name first
  ∧ y_axis_of T w = name first
  ∧ color_col_of T w = name first.
Proof.
  intros Hcols Hdt Hx Hy Hg Hwx Hwy Hwg.
  unfold x_axis_of, y_axis_of, color_col_of. rewrite Hwx, Hwy, Hwg.
  rewrite !option_at_untouched, !decide_False by done.
  unfold all_cols, numeric_cols, columns_tolist, select_dtypes. simpl.
  rewrite Hcols, filter_cons, decide_True by done. done.
Qed.

(** ** What a run shows, case by case *)









(** X8, lines 21 and 107-108: without an uploaded file the run shows the
    header and the invitation to upload; it builds no frame and touches
    neither the store nor the parser. *)
Theorem no_upload_waits (s : state) (w : widgets) :
  rerun s None w
  = ({| cache := cache s; parsed := parsed s; heap := [];
        page := header ++ [InfoBox waiting] |}, Ok ()).
Proof. unfold rerun, main. do 3 run1. by rewrite render_run. Qed.

(** ** The preview and the filter (lines 36 and 81) *)









Lemma isin_ext col (sel sel' : list value) :
  (∀ v, v ∈ sel ↔ v ∈ sel') → isin col sel = isin col sel'.
Proof.
  intros Hsame. unfold isin. apply list_fmap_ext. intros _ v _.
  by apply bool_decide_ext.
Qed.

(** X11, line 81: the aggregation depends on the selection only through the
    set of selected items; the order in which the user picked them, and
    picking one twice, change nothing. *)
Theorem selection_order_is_irrelevant
    (df : ref) (x_axis y_axis color_col : value)
    (selected_items selected_items' : list value) (s : state) :
  (∀ v, v ∈ selected_items ↔ v ∈ selected_items') →
  aggregate df x_axis y_axis color_col selected_items s
  = aggregate df x_axis y_axis color_col selected_items' s.
Proof.
  intros Hsame. unfold aggregate, mbind, M_bind.
  destruct (deref df s) as [s1 [T|e]]; [|done].
  destruct (lift_result (getitem T color_col) s1) as [s2 [col|e]]; [|done].
  by rewrite (isin_ext col _ _ Hsame).
Qed.

(** ** The shape and the total of the pivot (lines 86-91) *)

#[local] Instance value_le_total : Total value_le.
Proof.
  intros a b. unfold value_le.
  destruct a as [x|s|p| |], b as [y|t|q| |]; simpl; auto.
  - destruct (Z.leb_spec x y), (Z.leb_spec y x); auto; lia.
  - apply String.leb_total.
  - destruct p, q; auto.
Qed.

Lemma sum_cells_app (l k : list value) :
  sum_cells (l ++ k) = (sum_cells l + sum_cells k)%Z.
Proof.
  induction l as [|v l IH]; [done|].
  rewrite <-app_comm_cons, !sum_cells_cons, IH. lia.
Qed.





Lemma pivot_records_wf (rows : list record) d :
  wf_frame (pivot_records rows d).
Proof.
  unfold pivot_records. split; simpl.
  - apply Forall_fmap, Forall_forall. intros g _. simpl.
    by rewrite length_fmap.
  - rewrite <-list_fmap_compose.
    erewrite list_fmap_ext; [|by intros].
    rewrite list_fmap_id. apply NoDup_sorted_unique.
Qed.

Lemma pivot_records_columns (rows : list record) d :
  columns_tolist (pivot_records rows d)
  = merge_sort value_le (unique_go [] (rec_g <$> filter has_keys rows)).
Proof.
  unfold columns_tolist, pivot_records. simpl. rewrite <-list_fmap_compose.
  erewrite list_fmap_ext; [|by intros]. apply list_fmap_id.
Qed.

(** X12, lines 86-91, for three different columns: the pivot is a well-formed
    frame.  Its row labels are the X values of the kept rows that have
    both keys, without repetition and in ascending order; its column
    labels are the group values of those rows, likewise; so every column
    of the chart is a selected item, and no label is a missing value. *)
Theorem pivot_labels_are_the_kept_keys
    (df : ref) (T : DataFrame) (s : state)
    (x_axis y_axis color_col : value) (selected_items : list value)
    (xs gs ys : Series) :
  heap s !! df = Some T →
  getitem T x_axis = Ok xs →
  getitem T color_col = Ok gs →
  getitem T y_axis = Ok ys →
  NoDup [x_axis; color_col; y_axis] →
  let kept := filter (λ r, rec_g r ∈ selected_items) (records xs gs ys) in
  ∃ filtered_df chart_data,
    aggregate df x_axis y_axis color_col selected_items s
    = (extend [filtered_df; chart_data] [] s, Ok (length (heap s) + 1))
    ∧ wf_frame chart_data
    ∧ NoDup (index chart_data)
    ∧ Sorted value_le (index chart_data)
    ∧ Sorted value_le (columns_tolist chart_data)
    ∧ (∀ v, v ∈ index chart_data
            ↔ ∃ r, r ∈ kept ∧ has_keys r ∧ rec_x r = v)
    ∧ (∀ v, v ∈ columns_tolist chart_data
            ↔ ∃ r, r ∈ kept ∧ has_keys r ∧ rec_g r = v)
    ∧ Forall (λ v, v ∈ selected_items ∧ isna v = false)
        (columns_tolist chart_data).
Proof.
  intros Hdf Hx Hg Hy Hnd kept.
  exists (getitem_mask T (isin gs selected_items)),
    (pivot_records kept (dtype ys)).
  assert (∀ (f : record → value) v,
            v ∈ merge_sort value_le (unique_go [] (f <$> filter has_keys kept))
            ↔ ∃ r, r ∈ kept ∧ has_keys r ∧ f r = v) as Hkeys.
  { intros f v. rewrite elem_of_sorted_unique, list_elem_of_fmap. split.
    - intros (r & -> & [Hk Hr]%list_elem_of_filter). by exists r.
    - intros (r & Hr & Hk & <-). exists r. split; [done|].
      by apply list_elem_of_filter. }
  split; [|split; [|split; [|split; [|split; [|split; [|split]]]]]].
  - rewrite (aggregate_run df T s _ _ _ _ gs Hdf Hg).
    erewrite pivot_table_distinct; [|by apply getitem_mask_getitem..|done].
    by rewrite records_filtered.
  - apply pivot_records_wf.
  - apply NoDup_sorted_unique.
  - apply Sorted_merge_sort, _.
  - rewrite pivot_records_columns. apply Sorted_merge_sort, _.
  - apply Hkeys.
  - rewrite pivot_records_columns. apply Hkeys.
  - rewrite pivot_records_columns. apply Forall_forall. intros v Hv.
    apply Hkeys in Hv as (r & Hr & [_ Hk] & <-).
    by apply list_elem_of_filter in Hr as [? _].
Qed.


(** ** The store of [load_data] (lines 11-13) *)



(** ** Runs of one session *)





End Dashboard.

(** * The theorems on the example tables *)


(** The whole pivot of that example. *)
Example sales_pivot :
  pivot_table pivot_repeated_example
    (getitem_mask sales (isin sales_G [Str "a"; Str "b"]))
    (Str "X") (Str "G") (Str "Y")
  = Ok {| index := [Num 1; Num 2];
          columns :=
            [ {| name := Str "a"; dtype := float64; values := [Num 10; Num 3] |};
              {| name := Str "b"; dtype := float64; values := [Num 5; NaN] |} ] |}.
Proof. reflexivity. Qed.




(** The stock table has one missing cell in four rows and four columns. *)
Lemma summary_reports_the_counts_witness :
  let shown :=
    page (rerun read_examples pivot_repeated_example new_session
            (Some stock_csv) untouched).1 in
  Metric "Total Rows" "4" ∈ shown
  ∧ Metric "Total Columns" "4" ∈ shown
  ∧ Metric "Missing Values" "1" ∈ shown
  ∧ missing_values stock = 1%Z.
Proof.
  destruct (summary_reports_the_counts read_examples pivot_repeated_example
              new_session stock_csv untouched stock eq_refl)
    as (Hrows & _ & Hcols & Hmissing & Hcount & _).
  split; [exact Hrows|]. split; [exact Hcols|]. split; [exact Hmissing|].
  exact Hcount.
Defined.

(** A number with separators, as in the comment of line 30. *)
Example format_thousands_135391 :
  format_thousands (Z.to_nat 135391) = "135,391".
Proof. by vm_compute. Qed.


(** The stock table with the multiselect cleared. *)
Lemma empty_selection_warns_witness :
  let out := rerun read_examples pivot_repeated_example new_session
               (Some stock_csv) cleared in
  out.2 = Ok ()
  ∧ last (page out.1) = Some (WarningBox select_one_warning)
  ∧ Forall (λ e, ¬ is_chart e ∧ ¬ is_error e) (page out.1).
Proof.
  destruct (empty_selection_warns read_examples pivot_repeated_example
              new_session stock_csv cleared stock stock_item)
    as (Hok & Hpage & Hnone & _); [reflexivity|done|reflexivity..|].
  split; [exact Hok|]. split; [|exact Hnone].
  rewrite Hpage. reflexivity.
Defined.


(** The empty file: the parser raises, the page shows the error. *)
Lemma exceptions_are_shown_not_raised_witness :
  let out := rerun read_examples pivot_repeated_example new_session
               (Some empty_csv) untouched in
  out.2 = Ok ()
  ∧ page out.1
    = header ++ [ErrorBox "Error processing file: No columns to parse from file"].
Proof.
  destruct (exceptions_are_shown_not_raised read_examples
              pivot_repeated_example new_session (Some empty_csv) untouched)
    as (Hok & _ & Hparse).
  split; [exact Hok|]. exact (Hparse empty_csv _ eq_refl eq_refl).
Defined.

(** The same through the pivot: Y set to the week column on the stock
    table. *)
Example same_column_twice_shows_error :
  let out := rerun read_examples pivot_repeated_example new_session
               (Some stock_csv)
               {| x_choice := None; y_choice := Some 0; color_choice := None;
                  items_choice := None |} in
  out.2 = Ok ()
  ∧ last (page out.1)
    = Some (ErrorBox
              "Error processing file: Grouper for 'wm_yr_wk' not 1-dimensional")
  ∧ Forall (λ e, ¬ is_chart e) (page out.1).
Proof.
  split; [reflexivity|]. split; [reflexivity|].
  repeat constructor; by intros [].
Qed.

(** The whole script body on the sales table. *)
Lemma loaded_frame_is_never_modified_witness :
  heap (process pivot_repeated_example 0 untouched sales_loaded).1 !! 0
  = Some sales
  ∧ cache (process pivot_repeated_example 0 untouched sales_loaded).1 = ∅.
Proof.
  destruct (loaded_frame_is_never_modified pivot_repeated_example 0 sales
              sales_loaded untouched eq_refl)
    as [(Hsame & _ & Hcache) _].
  split; [exact Hsame|exact Hcache].
Defined.


Lemma stock_wf : wf_frame stock.
Proof. split; [by repeat constructor|by compute_done]. Qed.


(** * The further properties on the example tables *)

Lemma default_index_is_valid_witness :
  default_index (Str "Week_of_Supply") (all_cols stock) = 2
  ∧ default_index (Str "Week_of_Supply") (all_cols sales) = 0.
Proof.
  destruct (default_index_is_valid (Str "Week_of_Supply") (all_cols sales))
    as (_ & Hout & _).
  split; [reflexivity|]. apply Hout. by compute_done.
Defined.


Lemma pickers_return_columns_witness :
  ∃ ys, getitem stock (y_axis_of stock untouched) = Ok ys
        ∧ dtype ys ∈ [float64; int64].
Proof.
  destruct (pickers_return_columns stock untouched stock_wf)
    as (xs & gs & ys & _ & _ & Hy & _ & _ & _ & Hdt); [discriminate|].
  exists ys. split; [exact Hy|exact Hdt].
Defined.

Lemma pickers_default_to_known_names_witness :
  x_axis_of stock untouched = Str "wm_yr_wk"
  ∧ x_axis_of sales untouched = Str "X".
Proof.
  destruct (pickers_default_to_known_names stock untouched) as (Hx & _).
  destruct (pickers_default_to_known_names sales untouched) as (Hx' & _).
  split; [exact (Hx eq_refl)|exact (Hx' eq_refl)].
Defined.

Lemma untouched_pickers_can_coincide_witness :
  x_axis_of readings untouched = Str "sensor"
  ∧ y_axis_of readings untouched = Str "sensor"
  ∧ color_col_of readings untouched = Str "sensor".
Proof.
  apply (untouched_pickers_can_coincide readings untouched readings_sensor
           readings_rest eq_refl);
    try reflexivity; by compute_done.
Defined.






Lemma selection_order_is_irrelevant_witness :
  aggregate pivot_repeated_example 0 (Str "X") (Str "Y") (Str "G")
    [Str "b"; Str "a"; Str "b"] sales_loaded
  = aggregate pivot_repeated_example 0 (Str "X") (Str "Y") (Str "G")
      [Str "a"; Str "b"] sales_loaded.
Proof.
  apply selection_order_is_irrelevant. intros v.
  rewrite !elem_of_cons. tauto.
Defined.

Lemma pivot_labels_are_the_kept_keys_witness :
  ∃ filtered_df chart_data,
    aggregate pivot_repeated_example 0 (Str "wm_yr_wk") (Str "Week_of_Supply")
      (Str "walmart_item_number") [Num 8] stock_loaded
    = (extend [filtered_df; chart_data] [] stock_loaded, Ok 2)
    ∧ wf_frame chart_data
    ∧ Forall (λ v, v ∈ [Num 8] ∧ isna v = false) (columns_tolist chart_data).
Proof.
  destruct (pivot_labels_are_the_kept_keys pivot_repeated_example 0 stock
              stock_loaded (Str "wm_yr_wk") (Str "Week_of_Supply")
              (Str "walmart_item_number") [Num 8]
              stock_week stock_item stock_supply)
    as (filtered_df & chart_data & Hrun & Hwf & _ & _ & _ & _ & _ & Hsel);
    [reflexivity..|by compute_done|].
  exists filtered_df, chart_data.
  split; [exact Hrun|]. split; [exact Hwf|exact Hsel].
Defined.




